(** * GroupMe remote command bot (app.py): command dispatch and delivery

    A shallow embedding of [app.py].  Python strings are sequences of Unicode
    code points, dictionaries decoded from JSON are association lists, and the
    effects of the program (posting to the transport, logging, running a shell
    command) are recorded in a trace threaded through a small state-and-error
    monad.  Everything outside the program (the transport, the shell, the
    temperature probes, the clock) is an oracle of the environment. *)

From Stdlib Require Import List ZArith NArith Lia Bool Ascii String DecimalString.
Import ListNotations.

Set Warnings "-register-all".

(** ** Python strings *)

Module PyString.

(** A [str] is a sequence of code points; [len] counts code points. *)
Definition str := list N.

(** An ASCII literal of the source. *)
Definition lit (s : string) : str := map N_of_ascii (list_ascii_of_string s).

Definition NL : str := [10%N].

(** [str.isspace] for one code point (CPython's [_PyUnicode_IsWhitespace]). *)
Definition isspace (c : N) : bool :=
  ((9 <=? c) && (c <=? 13) || (28 <=? c) && (c <=? 32)
   || (c =? 133) || (c =? 160) || (c =? 5760)
   || (8192 <=? c) && (c <=? 8202)
   || (c =? 8232) || (c =? 8233) || (c =? 8239) || (c =? 8287)
   || (c =? 12288))%N.

Fixpoint lstrip (s : str) : str :=
  match s with
  | [] => []
  | c :: r => if isspace c then lstrip r else s
  end.

Definition rstrip (s : str) : str := rev (lstrip (rev s)).

(** [s.strip()] *)
Definition strip (s : str) : str := rstrip (lstrip s).

(** [s == t] *)
Fixpoint eqb (s t : str) : bool :=
  match s, t with
  | [], [] => true
  | a :: s', b :: t' => (a =? b)%N && eqb s' t'
  | _, _ => false
  end.

(** [s.startswith(p)] *)
Fixpoint startswith (s p : str) {struct p} : bool :=
  match p, s with
  | [], _ => true
  | b :: p', a :: s' => (a =? b)%N && startswith s' p'
  | _ :: _, [] => false
  end.

(** [sep.join(parts)] *)
Fixpoint join (sep : str) (parts : list str) : str :=
  match parts with
  | [] => []
  | [p] => p
  | p :: rest => p ++ sep ++ join sep rest
  end.

(** [str(n)] for an [int], as used by an f-string. *)
Definition of_int (n : Z) : str := lit (NilZero.string_of_int (Z.to_int n)).

(** Truth value of a string: non-empty. *)
Definition truthy (s : str) : bool :=
  match s with [] => false | _ :: _ => true end.

End PyString.

Import PyString.

(** ** Python values, exceptions and the effect monad *)

(** A value decoded from JSON by [request.get_json].  A [float] is kept as
    its IEEE-754 binary64 bit pattern; a [dict] as its items (keys are
    distinct in a decoded dictionary, so looking up the first match is the
    dictionary's lookup). *)
Inductive pyval : Type :=
| VNone
| VBool (b : bool)
| VInt (n : Z)
| VFloat (bits : Z)
| VStr (s : str)
| VList (l : list pyval)
| VDict (items : list (str * pyval)).

(** Truth value, as tested by [if not data]. *)
Definition py_truthy (v : pyval) : bool :=
  match v with
  | VNone => false
  | VBool b => b
  | VInt n => negb (n =? 0)%Z
  | VFloat bits => negb (Z.land bits (Z.ones 63) =? 0)%Z
  | VStr s => truthy s
  | VList l => match l with [] => false | _ :: _ => true end
  | VDict items => match items with [] => false | _ :: _ => true end
  end.

Fixpoint dict_get (items : list (str * pyval)) (key : str) (default : pyval) : pyval :=
  match items with
  | [] => default
  | (k, v) :: rest => if eqb k key then v else dict_get rest key default
  end.

(** [v == s] for a string literal [s]: only an equal string compares equal. *)
Definition py_eq_str (v : pyval) (s : str) : bool :=
  match v with
  | VStr t => eqb t s
  | _ => false
  end.

Inductive pyexc : Type :=
| AttributeError (attr : str)
| OSError (msg : str).

Inductive event : Type :=
| EvPost (bot_id text : str)     (* requests.post(GROUPME_POST_URL, json=payload) *)
| EvLogError (msg : str)         (* app.logger.error *)
| EvShell (command : str).       (* subprocess.run(command, shell=True) *)

Definition trace := list event.

Inductive result (A : Type) : Type :=
| Ok (a : A)
| Raise (e : pyexc).
Arguments Ok {A} a.
Arguments Raise {A} e.

(** A computation reads the events so far and returns a value or raises,
    together with the extended trace. *)
Definition M (A : Type) : Type := trace -> result A * trace.

Definition ret {A} (a : A) : M A := fun tr => (Ok a, tr).

Definition bind {A B} (m : M A) (k : A -> M B) : M B :=
  fun tr =>
    match m tr with
    | (Ok a, tr') => k a tr'
    | (Raise e, tr') => (Raise e, tr')
    end.

Definition raise {A} (e : pyexc) : M A := fun tr => (Raise e, tr).

Definition emit (e : event) : M unit := fun tr => (Ok tt, tr ++ [e]).

Declare Scope py_scope.
Delimit Scope py_scope with py.
Notation "x <- m ;; k" := (bind m (fun x => k))
  (at level 61, m at next level, right associativity) : py_scope.
Notation "m ;; k" := (bind m (fun _ => k))
  (at level 61, right associativity) : py_scope.
Open Scope py_scope.

(** ** The environment *)

Inductive post_outcome : Type :=
| Delivered
| RequestException (exc : str).

(** What [subprocess.run(..., capture_output=True, text=True, timeout=...)]
    does: the process completes, or the timeout expires (the child is killed
    and the exception carries what was captured so far), or another
    exception is raised. *)
Inductive shell_outcome : Type :=
| Completed (stdout stderr : str) (returncode : Z)
| TimeoutExpired (partial_stdout partial_stderr : str)
| ShellRaised (exc : str).


Inductive probe_outcome : Type :=
| ProbeCompleted (returncode : Z) (stdout : str)
| ProbeFileNotFound
| ProbeTimeoutExpired
| ProbeRaised (e : pyexc).

(** Reading [/sys/class/thermal/thermal_zone0/temp]: [ThermalRead r] gives
    the rendering [r] of [millideg / 1000] with one decimal (floating-point
    formatting, left to the environment); [ThermalError] gives the text of
    the exception caught. *)
Inductive thermal_outcome : Type :=
| ThermalRead (reading : str)
| ThermalError (exc : str).

Record Env : Type := {
  env_post : trace -> str -> str -> post_outcome;
  env_shell : trace -> str -> Z -> shell_outcome;
  env_vcgencmd : trace -> probe_outcome;
  env_thermal : trace -> thermal_outcome;
  env_local_ip : trace -> option str;
  env_now : trace -> str
}.

(** ** The program *)

Definition BOT_ID : str := lit "YOUR_BOT_ID_HERE".
Definition CMD_TIMEOUT : Z := 30.

(** The marker of [send_message]: a newline, the ellipsis U+2026 and
    ["(truncated)"]. *)
Definition TRUNCATION_MARKER : str := NL ++ [8230%N] ++ lit "(truncated)".

(** [HELP_TEXT]: U+1F916 is the robot face, U+2014 the em dash. *)
Definition HELP_TEXT : str :=
  [129302%N] ++ lit " Le Potato Bot " ++ [8212%N] ++ lit " available commands:" ++ NL
  ++ lit "  !help          " ++ [8212%N] ++ lit " show this message" ++ NL
  ++ lit "  !temp          " ++ [8212%N] ++ lit " current CPU temperature" ++ NL
  ++ lit "  !run <cmd>     " ++ [8212%N]
  ++ lit " execute a shell command and return output" ++ NL.

Definition USAGE : str := lit "Usage: !run <command>".

Section Program.

Variable env : Env.

(** Lines 31-32 of [send_message]: the text handed to the transport. *)
Definition clip (text : str) : str :=
  if 950 <? List.length text then firstn 950 text ++ TRUNCATION_MARKER else text.

Definition send_message (text : str) : M unit :=
  let text := clip text in
  fun tr =>
    match env_post env tr BOT_ID text with
    | Delivered => emit (EvPost BOT_ID text) tr
    | RequestException exc =>
        (emit (EvPost BOT_ID text) ;;
         emit (EvLogError (lit "Failed to send GroupMe message: " ++ exc))) tr
    end.

Definition get_local_ip : M str :=
  fun tr =>
    match env_local_ip env tr with
    | Some ip => ret ip tr
    | None => ret (lit "unknown") tr
    end.

(** The second [try] block of [get_cpu_temp]. *)
Definition read_thermal_zone : M str :=
  fun tr =>
    match env_thermal env tr with
    | ThermalRead reading => ret (lit "temp=" ++ reading ++ lit "'C") tr
    | ThermalError exc => ret (lit "Error reading temperature: " ++ exc) tr
    end.

Definition get_cpu_temp : M str :=
  fun tr =>
    match env_vcgencmd env tr with
    | ProbeCompleted returncode stdout =>
        if (returncode =? 0)%Z then ret (strip stdout) tr else read_thermal_zone tr
    | ProbeFileNotFound | ProbeTimeoutExpired => read_thermal_zone tr
    | ProbeRaised e => raise e tr
    end.

(** The [parts] list of [run_shell] for a completed process. *)
Definition shell_parts (stdout stderr : str) (returncode : Z) : list str :=
  let output := strip stdout in
  let errors := strip stderr in
  let parts := [] in
  let parts := if truthy output then parts ++ [output] else parts in
  let parts := if truthy errors then parts ++ [lit "[stderr]" ++ NL ++ errors] else parts in
  match parts with
  | [] => parts ++ [lit "(command exited with code " ++ of_int returncode
                      ++ lit ", no output)"]
  | _ :: _ => parts
  end.

Definition run_shell (command : str) : M str :=
  fun tr =>
    match env_shell env tr command CMD_TIMEOUT with
    | Completed stdout stderr returncode =>
        (emit (EvShell command) ;;
         ret (join NL (shell_parts stdout stderr returncode))) tr
    | TimeoutExpired _ _ =>
        (* U+23F1, the stopwatch sign *)
        (emit (EvShell command) ;;
         ret ([9201%N] ++ lit " Command timed out after " ++ of_int CMD_TIMEOUT
                ++ lit "s.")) tr
    | ShellRaised exc =>
        (* U+274C, the cross mark *)
        (emit (EvShell command) ;;
         ret ([10060%N] ++ lit " Execution error: " ++ exc)) tr
    end.

(** Lines 110-121: the branches of [handle_command] on the stripped text. *)
Definition handle_stripped (text : str) : M unit :=
  if eqb text (lit "!help") then
    send_message HELP_TEXT
  else if eqb text (lit "!temp") then
    temp <- get_cpu_temp ;;
    send_message ([127777%N] ++ lit " " ++ temp)
  else if startswith text (lit "!run ") then
    let command := strip (skipn 5 text) in
    if negb (truthy command) then
      send_message USAGE
    else
      out <- run_shell command ;;
      send_message (lit "$ " ++ command ++ NL ++ out)
  else
    ret tt.

Definition handle_command (text : str) : M unit :=
  let text := strip text in
  handle_stripped text.

(** A response of the route: [jsonify(...), status], or the 500 page Flask
    answers with when the view function raises. *)
Inductive response : Type :=
| Response (body : pyval) (status : Z)
| InternalServerError (e : pyexc).

Definition jsonify (items : list (str * str)) : pyval :=
  VDict (map (fun kv => (fst kv, VStr (snd kv))) items).

Definition RESP_NO_JSON : response :=
  Response (jsonify [(lit "status", lit "ignored"); (lit "reason", lit "no JSON")]) 200.
Definition RESP_BOT : response :=
  Response (jsonify [(lit "status", lit "ignored"); (lit "reason", lit "bot message")]) 200.
Definition RESP_OK : response :=
  Response (jsonify [(lit "status", lit "ok")]) 200.

(** [request.get_json(silent=True)]: [None] when the body is absent or is
    not valid JSON, the decoded value otherwise. *)
Definition get_json (body : option pyval) : pyval :=
  match body with
  | None => VNone
  | Some v => v
  end.

(** [data.get(key, default)]: only a [dict] has the method. *)
Definition py_get (data : pyval) (key : str) (default : pyval) : M pyval :=
  match data with
  | VDict items => ret (dict_get items key default)
  | _ => raise (AttributeError (lit "get"))
  end.

(** The view function of the route [/].  [handle_command] is a module
    global looked up when the call is made; the body is written over the
    callee [dispatch], so that a statement can say the callee is not called. *)
Definition groupme_webhook_via (dispatch : str -> M unit) (body : option pyval)
  : M response :=
  let data := get_json body in
  if negb (py_truthy data) then
    ret RESP_NO_JSON
  else
    sender_type <- py_get data (lit "sender_type") VNone ;;
    if py_eq_str sender_type (lit "bot") then
      ret RESP_BOT
    else
      text <- py_get data (lit "text") (VStr []) ;;
      match text with
      | VStr text =>
          (if startswith text (lit "!") then dispatch text else ret tt) ;;
          ret RESP_OK
      | _ => raise (AttributeError (lit "startswith"))
      end.

Definition groupme_webhook : option pyval -> M response :=
  groupme_webhook_via handle_command.

(** The route as served by Flask: an exception escaping the view function
    becomes a 500 response. *)
Definition serve (body : option pyval) (tr : trace) : response * trace :=
  match groupme_webhook body tr with
  | (Ok r, tr') => (r, tr')
  | (Raise e, tr') => (InternalServerError e, tr')
  end.

Definition send_homing_beacon : M unit :=
  ip <- get_local_ip ;;
  now <- (fun tr => ret (env_now env tr) tr) ;;
  let message :=
    [128225%N] ++ lit " Le Potato bot is ONLINE" ++ NL
    ++ [128336%N] ++ lit " Time : " ++ now ++ NL
    ++ [127760%N] ++ lit " IP   : " ++ ip ++ NL
    ++ lit "Type !help for available commands." in
  send_message message.

End Program.

Definition http_status (r : response) : Z :=
  match r with
  | Response _ status => status
  | InternalServerError _ => 500
  end.

(** The texts handed to the transport, in order. *)
Fixpoint posts (tr : trace) : list str :=
  match tr with
  | [] => []
  | EvPost _ text :: rest => text :: posts rest
  | _ :: rest => posts rest
  end.

(** The commands given to the shell, in order. *)
Fixpoint shell_runs (tr : trace) : list str :=
  match tr with
  | [] => []
  | EvShell command :: rest => command :: shell_runs rest
  | _ :: rest => shell_runs rest
  end.

(** ** The specification's reading of the dispatcher

    The specification splits [handle_command] into a parser that yields a
    command variant and the action taken for each variant.  The two
    definitions below follow its wording; they are compared with the source's
    [handle_command] further down. *)

Inductive Command : Type :=
| Help
| Temperature
| Run (argument : str)
| Ignore.

Definition parse (raw : str) : Command :=
  let text := strip raw in
  if eqb text (lit "!help") then Help
  else if eqb text (lit "!temp") then Temperature
  else if startswith text (lit "!run ") then Run (strip (skipn 5 text))
  else Ignore.

Definition perform (env : Env) (c : Command) : M unit :=
  match c with
  | Help => send_message env HELP_TEXT
  | Temperature =>
      temp <- get_cpu_temp env ;;
      send_message env ([127777%N] ++ lit " " ++ temp)
  | Run argument =>
      if negb (truthy argument) then send_message env USAGE
      else
        out <- run_shell env argument ;;
        send_message env (lit "$ " ++ argument ++ NL ++ out)
  | Ignore => ret tt
  end.

(** The other placement of the prefix filter that the specification allows:
    the route hands every text to the parser, which ignores what is not a
    command. *)
Definition groupme_webhook_parser_filter (env : Env) (body : option pyval)
  : M response :=
  let data := get_json body in
  if negb (py_truthy data) then
    ret RESP_NO_JSON
  else
    sender_type <- py_get data (lit "sender_type") VNone ;;
    if py_eq_str sender_type (lit "bot") then
      ret RESP_BOT
    else
      text <- py_get data (lit "text") (VStr []) ;;
      match text with
      | VStr text => handle_command env text ;; ret RESP_OK
      | _ => raise (AttributeError (lit "startswith"))
      end.

(** ** Sample hosts and payloads, for concrete runs *)

(** A host where the transport delivers, [echo 42] prints its argument,
    [sleep] commands outlive the timeout after printing a line, and the
    temperature comes from the thermal zone file. *)
Definition sample_env : Env := {|
  env_post := fun _ _ _ => Delivered;
  env_shell := fun _ command _ =>
    if eqb command (lit "echo 42") then Completed (lit "42" ++ NL) [] 0
    else if startswith command (lit "sleep ") then TimeoutExpired (lit "partial") []
    else if eqb command (lit "ls /nope") then
      Completed [] (lit "ls: cannot access '/nope'" ++ NL) 2
    else Completed [] [] 0;
  env_vcgencmd := fun _ => ProbeFileNotFound;
  env_thermal := fun _ => ThermalRead (lit "45.0");
  env_local_ip := fun _ => Some (lit "192.168.1.20");
  env_now := fun _ => lit "2024-01-01 00:00:00"
|}.

(** The same host with the transport down. *)
Definition offline_env : Env := {|
  env_post := fun _ _ _ => RequestException (lit "connection refused");
  env_shell := env_shell sample_env;
  env_vcgencmd := env_vcgencmd sample_env;
  env_thermal := env_thermal sample_env;
  env_local_ip := fun _ => None;
  env_now := env_now sample_env
|}.

(** The same host with a [vcgencmd] that is present but cannot be executed. *)
Definition locked_probe_env : Env := {|
  env_post := env_post sample_env;
  env_shell := env_shell sample_env;
  env_vcgencmd := fun _ => ProbeRaised (OSError (lit "Permission denied"));
  env_thermal := env_thermal sample_env;
  env_local_ip := env_local_ip sample_env;
  env_now := env_now sample_env
|}.

(** A callee that leaves a mark whenever it is called. *)
Definition marking_dispatch (text : str) : M unit := emit (EvShell text).

Definition user_message (text : pyval) : option pyval :=
  Some (VDict [(lit "sender_type", VStr (lit "user")); (lit "text", text)]).

Definition bot_message (text : pyval) : option pyval :=
  Some (VDict [(lit "sender_type", VStr (lit "bot")); (lit "text", text)]).

(** ** Notions used in the statements *)

(** The transport's cap on the length of a message. *)
Definition within_cap (texts : list str) : Prop :=
  Forall (fun text => List.length text <= 1000) texts.


(** The payloads the view function is written for: nothing usable, or an
    object whose [text] is absent or a string. *)
Definition expected_payload (body : option pyval) : Prop :=
  py_truthy (get_json body) = false
  \/ exists items text,
       get_json body = VDict items
       /\ dict_get items (lit "text") (VStr []) = VStr text.

(** A text has no outer whitespace when neither end can be stripped. *)
Definition trimmed (s : str) : Prop := lstrip s = s /\ rstrip s = s.

(** * Properties *)

(** ** Facts on the string primitives *)

Module PyStringFacts.

Lemma eqb_eq s t : eqb s t = true <-> s = t.
Proof.
  revert t; induction s as [|a s IH]; intros [|b t]; simpl;
    try (split; [discriminate | congruence]); try tauto.
  rewrite andb_true_iff, N.eqb_eq, IH. split.
  - intros [-> ->]; reflexivity.
  - intros E; injection E; auto.
Qed.

Lemma eqb_refl s : eqb s s = true.
Proof. apply eqb_eq; reflexivity. Qed.

Lemma eqb_neq s t : eqb s t = false <-> s <> t.
Proof.
  rewrite <- eqb_eq. destruct (eqb s t); split; congruence.
Qed.

Lemma startswith_app s p : startswith s p = true <-> exists r, s = p ++ r.
Proof.
  revert s; induction p as [|b p IH]; intros s; simpl.
  - split; [intros _; exists s; reflexivity | reflexivity].
  - destruct s as [|a s].
    + split; [discriminate | intros [r E]; discriminate].
    + rewrite andb_true_iff, N.eqb_eq, IH. split.
      * intros [-> [r ->]]. exists r; reflexivity.
      * intros [r E]. injection E as -> ->. split; [reflexivity | exists r; reflexivity].
Qed.

Lemma startswith_trans s p q :
  startswith s p = true -> startswith p q = true -> startswith s q = true.
Proof.
  rewrite !startswith_app. intros [r ->] [r' ->].
  exists (r' ++ r). now rewrite app_assoc.
Qed.

(** A prefix that the pattern does not extend rules the pattern out. *)
Lemma startswith_conflict s p q :
  startswith s p = true -> startswith s q = true ->
  startswith p q = true \/ startswith q p = true.
Proof.
  revert s q; induction p as [|b p IH]; intros s q Hp Hq.
  - right. destruct q; reflexivity.
  - destruct q as [|c q]; [left; reflexivity|].
    destruct s as [|a s]; [discriminate|]. simpl in *.
    apply andb_true_iff in Hp as [Hab Hp], Hq as [Hac Hq].
    apply N.eqb_eq in Hab, Hac; subst.
    rewrite N.eqb_refl; simpl. eauto.
Qed.

Lemma lstrip_all_space s : lstrip s = [] <-> forallb isspace s = true.
Proof.
  induction s as [|c s IH]; simpl; [tauto|].
  destruct (isspace c); simpl; [exact IH | split; discriminate].
Qed.

Lemma lstrip_head s c r : lstrip s = c :: r -> isspace c = false.
Proof.
  induction s as [|a s IH]; simpl; [discriminate|].
  destruct (isspace a) eqn:E; [exact IH | intros H; injection H as -> _; exact E].
Qed.

(** [lstrip] removes a prefix made of whitespace only. *)
Lemma lstrip_split s : exists pre, s = pre ++ lstrip s /\ forallb isspace pre = true.
Proof.
  induction s as [|a s [pre [E H]]]; simpl.
  - exists []; split; reflexivity.
  - destruct (isspace a) eqn:Ea.
    + exists (a :: pre); simpl. rewrite Ea, H, <- E. split; reflexivity.
    + exists []; split; reflexivity.
Qed.

Lemma lstrip_fixed c r : isspace c = false -> lstrip (c :: r) = c :: r.
Proof. intros H; simpl; now rewrite H. Qed.

Lemma rstrip_last s r c : rstrip s = r ++ [c] -> isspace c = false.
Proof.
  unfold rstrip. intros H.
  apply (f_equal (@rev N)) in H. rewrite rev_involutive, rev_app_distr in H.
  simpl in H. eapply lstrip_head; eassumption.
Qed.

Lemma rstrip_fixed r c : isspace c = false -> rstrip (r ++ [c]) = r ++ [c].
Proof.
  intros H. unfold rstrip. rewrite rev_app_distr; simpl.
  rewrite H. simpl. rewrite rev_involutive. reflexivity.
Qed.

Lemma rstrip_all_space s : rstrip s = [] <-> forallb isspace s = true.
Proof.
  unfold rstrip. split.
  - intros H. apply (f_equal (@rev N)) in H. rewrite rev_involutive in H.
    simpl in H. apply lstrip_all_space in H.
    rewrite forallb_forall in *. intros x Hx. apply H, in_rev. now rewrite rev_involutive.
  - intros H. replace (lstrip (rev s)) with (@nil N); [reflexivity|].
    symmetry. apply lstrip_all_space.
    rewrite forallb_forall in *. intros x Hx. apply H, in_rev, Hx.
Qed.

(** [rstrip] keeps the first character of a string that does not end up empty. *)
Lemma rstrip_cons c r : isspace c = false -> exists r', rstrip (c :: r) = c :: r'.
Proof.
  intros Hc. unfold rstrip. simpl.
  destruct (lstrip_split (rev r ++ [c])) as [pre [E Hpre]].
  destruct (lstrip (rev r ++ [c])) as [|x l] eqn:El.
  - exfalso. rewrite app_nil_r in E. rewrite <- E in Hpre.
    rewrite forallb_app in Hpre. simpl in Hpre. rewrite Hc in Hpre.
    rewrite andb_false_r in Hpre. discriminate.
  - assert (Hlast : exists l', x :: l = l' ++ [c]).
    { destruct (exists_last (l := x :: l)) as [l' [z Ez]]; [discriminate|].
      exists l'. rewrite Ez in E |- *. rewrite app_assoc in E.
      apply app_inj_tail in E as [_ ->]. reflexivity. }
    destruct Hlast as [l' ->]. rewrite rev_app_distr. simpl. eauto.
Qed.

Lemma strip_head s c r : strip s = c :: r -> isspace c = false.
Proof.
  unfold strip. destruct (lstrip s) as [|a l] eqn:E.
  - discriminate.
  - pose proof (lstrip_head _ _ _ E) as Ha.
    destruct (rstrip_cons a l Ha) as [r' ->]. now intros H; injection H as <- _.
Qed.

Lemma strip_last s r c : strip s = r ++ [c] -> isspace c = false.
Proof. apply rstrip_last. Qed.

Lemma strip_all_space s : strip s = [] <-> forallb isspace s = true.
Proof.
  unfold strip. rewrite rstrip_all_space.
  destruct (lstrip_split s) as [pre [E H]]. split.
  - intros H'. rewrite E, forallb_app, H, H'. reflexivity.
  - intros H'. rewrite E, forallb_app in H'. now apply andb_true_iff in H' as [_ ?].
Qed.

(** A string with no whitespace at either end is left alone. *)
Lemma strip_fixed c r d :
  isspace c = false -> isspace d = false -> strip (c :: r ++ [d]) = c :: r ++ [d].
Proof.
  intros Hc Hd. unfold strip. rewrite lstrip_fixed by exact Hc.
  apply (rstrip_fixed (c :: r) d Hd).
Qed.

Lemma lstrip_app_space w s : forallb isspace w = true -> lstrip (w ++ s) = lstrip s.
Proof.
  induction w as [|c w IH]; simpl; [reflexivity|].
  intros H. apply andb_true_iff in H as [Hc Hw]. rewrite Hc. auto.
Qed.

Lemma rstrip_app_space s w : forallb isspace w = true -> rstrip (s ++ w) = rstrip s.
Proof.
  intros H. unfold rstrip. rewrite rev_app_distr, lstrip_app_space; [reflexivity|].
  rewrite forallb_forall in *. intros x Hx. apply H, in_rev, Hx.
Qed.

(** Stripping a string that ends with a character that is not whitespace
    leaves something. *)
Lemma strip_nonempty r c : isspace c = false -> strip (r ++ [c]) <> [].
Proof.
  intros Hc H. apply strip_all_space in H.
  rewrite forallb_app in H. simpl in H. rewrite Hc, andb_false_r in H. discriminate.
Qed.

Lemma truthy_nonempty s : truthy s = true <-> s <> [].
Proof. destruct s; simpl; split; congruence. Qed.

Lemma truthy_empty s : truthy s = false <-> s = [].
Proof. destruct s; simpl; split; congruence. Qed.

End PyStringFacts.

Import PyStringFacts.

(** ** Traces and the monad *)

Lemma posts_app a b : posts (a ++ b) = posts a ++ posts b.
Proof.
  induction a as [|e a IH]; simpl; [reflexivity|].
  destruct e; simpl; rewrite IH; reflexivity.
Qed.

Lemma shell_runs_app a b : shell_runs (a ++ b) = shell_runs a ++ shell_runs b.
Proof.
  induction a as [|e a IH]; simpl; [reflexivity|].
  destruct e; simpl; rewrite IH; reflexivity.
Qed.

Lemma bind_ok {A B} {m : M A} (k : A -> M B) {tr a tr'} :
  m tr = (Ok a, tr') -> bind m k tr = k a tr'.
Proof. unfold bind. intros ->. reflexivity. Qed.

Lemma bind_raise {A B} {m : M A} (k : A -> M B) {tr e tr'} :
  m tr = (Raise e, tr') -> bind m k tr = (Raise e, tr').
Proof. unfold bind. intros ->. reflexivity. Qed.

(** ** Delivery *)

Lemma length_marker : List.length TRUNCATION_MARKER = 13.
Proof. reflexivity. Qed.

Lemma clip_short text : List.length text <= 950 -> clip text = text.
Proof.
  intros H. unfold clip.
  destruct (Nat.ltb_spec 950 (List.length text)); [lia | reflexivity].
Qed.

Lemma clip_long text :
  950 < List.length text -> clip text = firstn 950 text ++ TRUNCATION_MARKER.
Proof.
  intros H. unfold clip.
  destruct (Nat.ltb_spec 950 (List.length text)); [reflexivity | lia].
Qed.

Lemma clip_length text : List.length (clip text) <= 963.
Proof.
  destruct (Nat.le_gt_cases (List.length text) 950) as [H|H].
  - rewrite clip_short by exact H. lia.
  - rewrite clip_long by exact H.
    rewrite length_app, length_marker, length_firstn. lia.
Qed.

(** [clip] keeps the first character. *)
Lemma clip_head c text : exists rest, clip (c :: text) = c :: rest.
Proof.
  unfold clip. destruct (950 <? List.length (c :: text)).
  - exists (firstn 949 text ++ TRUNCATION_MARKER). reflexivity.
  - exists text. reflexivity.
Qed.

(** One call of [send_message] always returns, having handed exactly the
    clipped text to the transport; a failed delivery only adds a log entry. *)
Lemma send_message_trace env text tr :
  exists log,
    send_message env text tr = (Ok tt, tr ++ EvPost BOT_ID (clip text) :: log)
    /\ posts log = [] /\ shell_runs log = [].
Proof.
  unfold send_message. destruct (env_post env tr BOT_ID (clip text)) as [|exc].
  - exists []. unfold emit. repeat split.
  - exists [EvLogError (lit "Failed to send GroupMe message: " ++ exc)].
    unfold bind, emit. rewrite <- app_assoc. repeat split.
Qed.

(** With the transport down the message is still handed over once, the
    failure is logged, and the caller sees a normal return. *)
Example send_message_offline :
  send_message offline_env USAGE []
    = (Ok tt, [EvPost BOT_ID USAGE;
               EvLogError (lit "Failed to send GroupMe message: connection refused")]).
Proof. reflexivity. Qed.

Lemma send_message_posts env text tr :
  posts (snd (send_message env text tr)) = posts tr ++ [clip text].
Proof.
  destruct (send_message_trace env text tr) as [log [-> [Hp _]]].
  simpl. rewrite posts_app. simpl. rewrite Hp. reflexivity.
Qed.

Lemma send_message_shell_runs env text tr :
  shell_runs (snd (send_message env text tr)) = shell_runs tr.
Proof.
  destruct (send_message_trace env text tr) as [log [-> [_ Hs]]].
  simpl. rewrite shell_runs_app. simpl. rewrite Hs. apply app_nil_r.
Qed.

Lemma send_message_ok env text tr : fst (send_message env text tr) = Ok tt.
Proof. destruct (send_message_trace env text tr) as [log [-> _]]. reflexivity. Qed.

(** ** The probes and the shell *)

Lemma read_thermal_zone_pure env tr :
  exists temp, read_thermal_zone env tr = (Ok temp, tr).
Proof.
  unfold read_thermal_zone. destruct (env_thermal env tr); eexists; reflexivity.
Qed.

(** [get_cpu_temp] leaves no event; it returns a text, or lets through the
    exception of the probe that its [except] clause does not name. *)
Lemma get_cpu_temp_pure env tr :
  (exists temp, get_cpu_temp env tr = (Ok temp, tr))
  \/ (exists e, get_cpu_temp env tr = (Raise e, tr)).
Proof.
  unfold get_cpu_temp.
  destruct (env_vcgencmd env tr) as [rc out | | | e];
    try (left; apply read_thermal_zone_pure).
  - destruct (rc =? 0)%Z; left; [eexists; reflexivity | apply read_thermal_zone_pure].
  - right. eexists; reflexivity.
Qed.

(** [run_shell] always returns a text, after one shell execution. *)
Lemma run_shell_trace env command tr :
  exists out, run_shell env command tr = (Ok out, tr ++ [EvShell command]).
Proof.
  unfold run_shell.
  destruct (env_shell env tr command CMD_TIMEOUT); eexists; reflexivity.
Qed.

(** ** The dispatcher *)

Lemma lit_help_not_run : startswith (lit "!help") (lit "!run ") = false.
Proof. reflexivity. Qed.

Lemma lit_temp_not_run : startswith (lit "!temp") (lit "!run ") = false.
Proof. reflexivity. Qed.

Lemma run_prefix_not_help text :
  startswith text (lit "!run ") = true -> eqb text (lit "!help") = false.
Proof.
  intros H. apply eqb_neq. intros ->. discriminate H.
Qed.

Lemma run_prefix_not_temp text :
  startswith text (lit "!run ") = true -> eqb text (lit "!temp") = false.
Proof.
  intros H. apply eqb_neq. intros ->. discriminate H.
Qed.

(** After [strip], a text that starts with ["!run "] has an argument that
    does not strip to the empty string: the stripped text cannot end with
    the blank of the prefix, nor with any other whitespace. *)
Lemma stripped_run_argument raw :
  startswith (strip raw) (lit "!run ") = true ->
  truthy (strip (skipn 5 (strip raw))) = true.
Proof.
  intros H. apply startswith_app in H as [r E]. rewrite E.
  change (skipn 5 (lit "!run " ++ r)) with r.
  apply truthy_nonempty.
  destruct r as [|x r'] using rev_ind.
  - exfalso. rewrite app_nil_r in E.
    change (lit "!run ") with (lit "!run" ++ [32%N]) in E.
    apply strip_last in E. discriminate E.
  - rewrite app_assoc in E. apply strip_last in E.
    apply strip_nonempty, E.
Qed.

Lemma handle_command_help env raw :
  strip raw = lit "!help" -> handle_command env raw = send_message env HELP_TEXT.
Proof. unfold handle_command, handle_stripped. intros ->. reflexivity. Qed.

Lemma handle_command_temp env raw :
  strip raw = lit "!temp" ->
  handle_command env raw =
    (temp <- get_cpu_temp env ;; send_message env ([127777%N] ++ lit " " ++ temp)).
Proof. unfold handle_command, handle_stripped. intros ->. reflexivity. Qed.

Lemma handle_command_run env raw :
  startswith (strip raw) (lit "!run ") = true ->
  handle_command env raw =
    (let command := strip (skipn 5 (strip raw)) in
     out <- run_shell env command ;;
     send_message env (lit "$ " ++ command ++ NL ++ out)).
Proof.
  intros H. unfold handle_command, handle_stripped.
  rewrite (run_prefix_not_help _ H), (run_prefix_not_temp _ H), H.
  rewrite (stripped_run_argument _ H). reflexivity.
Qed.

Lemma handle_stripped_other env text :
  eqb text (lit "!help") = false -> eqb text (lit "!temp") = false ->
  startswith text (lit "!run ") = false ->
  handle_stripped env text = ret tt.
Proof. unfold handle_stripped. intros -> -> ->. reflexivity. Qed.

Lemma handle_command_perform env raw : handle_command env raw = perform env (parse raw).
Proof.
  unfold handle_command, handle_stripped, parse, perform.
  destruct (eqb (strip raw) (lit "!help")); [reflexivity|].
  destruct (eqb (strip raw) (lit "!temp")); [reflexivity|].
  destruct (startswith (strip raw) (lit "!run ")); reflexivity.
Qed.

(** ** Parsing and dispatch *)

(** C1.  [handle_command] strips the raw text and then does the work of
    exactly one variant: the stripped text ["!help"] is Help (the help text is
    sent), ["!temp"] is Temperature (the temperature is read and sent), a
    stripped text with the five-character prefix ["!run "] is Run with the
    stripped remainder as argument (the command is run and its report sent),
    and every other text is Ignore, which leaves the trace as it was.  The
    three conditions exclude each other, and the source's chain of tests
    agrees with the specification's parser followed by the action of the
    variant. *)
Theorem handle_command_variants (env : Env) (raw : str) :
  let text := strip raw in
  handle_command env raw = perform env (parse raw)
  /\ (text = lit "!help" ->
      parse raw = Help /\ handle_command env raw = send_message env HELP_TEXT)
  /\ (text = lit "!temp" ->
      parse raw = Temperature
      /\ handle_command env raw =
           (temp <- get_cpu_temp env ;;
            send_message env ([127777%N] ++ lit " " ++ temp)))
  /\ (startswith text (lit "!run ") = true ->
      parse raw = Run (strip (skipn 5 text))
      /\ handle_command env raw =
           (out <- run_shell env (strip (skipn 5 text)) ;;
            send_message env (lit "$ " ++ strip (skipn 5 text) ++ NL ++ out)))
  /\ (text <> lit "!help" -> text <> lit "!temp" ->
      startswith text (lit "!run ") = false ->
      parse raw = Ignore /\ forall tr, handle_command env raw tr = (Ok tt, tr))
  /\ (text = lit "!help" ->
      text <> lit "!temp" /\ startswith text (lit "!run ") = false)
  /\ (text = lit "!temp" -> startswith text (lit "!run ") = false).
Proof.
  intros text. subst text. split; [apply handle_command_perform|].
  split; [|split; [|split; [|split; [|split]]]].
  - intros E. split; [|apply handle_command_help, E].
    unfold parse. rewrite E. reflexivity.
  - intros E. split; [|apply handle_command_temp, E].
    unfold parse. rewrite E. reflexivity.
  - intros H. split; [|apply (handle_command_run env raw H)].
    unfold parse.
    rewrite (run_prefix_not_help _ H), (run_prefix_not_temp _ H), H. reflexivity.
  - intros Hh Ht Hr. apply eqb_neq in Hh, Ht. split.
    + unfold parse. rewrite Hh, Ht, Hr. reflexivity.
    + intros tr. unfold handle_command.
      rewrite (handle_stripped_other env _ Hh Ht Hr). reflexivity.
  - intros ->. split; [discriminate | reflexivity].
  - intros ->. reflexivity.
Qed.

Lemma handle_command_variants_witness :
  parse (lit "  !run echo hi ") = Run (lit "echo hi")
  /\ handle_command sample_env (lit "  !run echo hi ") =
       (out <- run_shell sample_env (lit "echo hi") ;;
        send_message sample_env (lit "$ " ++ lit "echo hi" ++ NL ++ out)).
Proof.
  apply (proj1 (proj2 (proj2 (proj2
    (handle_command_variants sample_env (lit "  !run echo hi ")))))).
  reflexivity.
Defined.

(** ** Truncation *)

Lemma handle_command_posts_cap env raw tr :
  within_cap (posts tr) -> within_cap (posts (snd (handle_command env raw tr))).
Proof.
  intros Hcap.
  assert (Hsend : forall text tr', within_cap (posts tr') ->
            within_cap (posts (snd (send_message env text tr')))).
  { intros text tr' H. rewrite send_message_posts. apply Forall_app. split; [exact H|].
    constructor; [|constructor]. pose proof (clip_length text). lia. }
  rewrite handle_command_perform. destruct (parse raw) as [| |argument|]; unfold perform.
  - apply Hsend, Hcap.
  - destruct (get_cpu_temp_pure env tr) as [[temp E]|[e E]].
    + rewrite (bind_ok _ E). apply Hsend, Hcap.
    + rewrite (bind_raise _ E). exact Hcap.
  - destruct (negb (truthy argument)); [apply Hsend, Hcap|].
    destruct (run_shell_trace env argument tr) as [out E].
    rewrite (bind_ok _ E). apply Hsend.
    rewrite posts_app. simpl. rewrite app_nil_r. exact Hcap.
  - exact Hcap.
Qed.

Lemma serve_posts_cap env body tr :
  within_cap (posts tr) -> within_cap (posts (snd (serve env body tr))).
Proof.
  intros Hcap. unfold serve, groupme_webhook, groupme_webhook_via.
  destruct (negb (py_truthy (get_json body))); [exact Hcap|].
  destruct (get_json body) as [| | | | |l|items]; try exact Hcap.
  cbn [py_get]. unfold bind at 1. unfold ret at 1.
  destruct (py_eq_str _ _); [exact Hcap|].
  unfold bind at 1. unfold ret at 1.
  destruct (dict_get items (lit "text") (VStr [])) as [| | | |s| |]; try exact Hcap.
  pose proof (handle_command_posts_cap env s tr Hcap) as H.
  unfold bind. destruct (startswith s (lit "!")); [|exact Hcap].
  destruct (handle_command env s tr) as [[[]|e] tr']; exact H.
Qed.

(** C2.  The text [send_message] hands to the transport is the composed text
    when that has at most 950 characters; a longer text is cut to its first
    950 characters followed by the marker, so it ends with the marker.  Every
    message goes through this one function (a help text, a temperature, a
    usage line, a command report, the startup announcement), and what is
    handed over never has more than 1000 characters. *)
Theorem send_message_truncation (env : Env) (text : str) (tr : trace) :
  posts (snd (send_message env text tr)) = posts tr ++ [clip text]
  /\ List.length (clip text) <= 1000
  /\ (950 < List.length text ->
      clip text = firstn 950 text ++ TRUNCATION_MARKER
      /\ List.length (firstn 950 text) = 950
      /\ skipn 950 (clip text) = TRUNCATION_MARKER)
  /\ (List.length text <= 950 -> clip text = text)
  /\ (forall raw,
        within_cap (posts tr) -> within_cap (posts (snd (handle_command env raw tr))))
  /\ (forall body,
        within_cap (posts tr) -> within_cap (posts (snd (serve env body tr))))
  /\ (within_cap (posts tr) -> within_cap (posts (snd (send_homing_beacon env tr)))).
Proof.
  split; [apply send_message_posts|].
  split; [pose proof (clip_length text); lia|].
  split; [|split; [apply clip_short|]].
  { intros H. rewrite (clip_long _ H).
    assert (Hlen : List.length (firstn 950 text) = 950)
      by (rewrite length_firstn; lia).
    repeat split; [exact Hlen|].
    rewrite skipn_app, Hlen, Nat.sub_diag, skipn_all2 by lia. reflexivity. }
  split; [intros raw; apply handle_command_posts_cap|].
  split.
  - intros body Hcap. apply serve_posts_cap, Hcap.
  - intros Hcap. unfold send_homing_beacon, get_local_ip.
    unfold bind, ret. destruct (env_local_ip env tr);
      rewrite send_message_posts; apply Forall_app; (split; [exact Hcap|]);
      (constructor; [|constructor]);
      match goal with |- List.length (clip ?t) <= _ =>
        pose proof (clip_length t); lia end.
Qed.

Lemma send_message_truncation_witness :
  clip (repeat 120%N 951) = repeat 120%N 950 ++ TRUNCATION_MARKER
  /\ List.length (firstn 950 (repeat 120%N 951)) = 950
  /\ skipn 950 (clip (repeat 120%N 951)) = TRUNCATION_MARKER.
Proof.
  apply (proj1 (proj2 (proj2 (send_message_truncation sample_env (repeat 120%N 951) [])))).
  vm_compute. lia.
Defined.

(** ** Timeouts *)




(** ** Replies to a completed command *)

Lemma shell_parts_join stdout stderr rc :
  let output := strip stdout in
  let errors := strip stderr in
  let body := join NL (shell_parts stdout stderr rc) in
  (output <> [] -> errors = [] -> body = output)
  /\ (output <> [] -> errors <> [] ->
      body = output ++ NL ++ lit "[stderr]" ++ NL ++ errors)
  /\ (output = [] -> errors <> [] -> body = lit "[stderr]" ++ NL ++ errors)
  /\ (output = [] -> errors = [] ->
      body = lit "(command exited with code " ++ of_int rc ++ lit ", no output)").
Proof.
  cbv zeta. unfold shell_parts.
  destruct (strip stdout) as [|a o]; destruct (strip stderr) as [|b e];
    repeat split; intros; try congruence; reflexivity.
Qed.

(** A user's message whose text starts with ["!"] reaches the dispatcher. *)
Lemma webhook_user_command env text tr :
  startswith text (lit "!") = true ->
  groupme_webhook env (user_message (VStr text)) tr
    = (handle_command env text ;; ret RESP_OK) tr.
Proof.
  intros H. change (lit "!") with [33%N] in H.
  unfold groupme_webhook, groupme_webhook_via, user_message.
  cbv -[handle_command startswith]. rewrite H. reflexivity.
Qed.

(** C4.  For a [!run] text whose command completes, exactly that command is
    run once and one message is sent: the line echoing the command followed by
    a body.  The body is the stripped stdout; the block ["[stderr]"] with the
    stripped stderr follows it (on a new line) exactly when the stripped
    stderr is not empty; when both are empty the body is the placeholder with
    the exit code and "no output".  With stdout ["42\n"], the message
    ["!run echo 42"] from a user is answered by the text ["$ echo 42\n42"] and
    the response [{"status": "ok"}]. *)
Theorem run_reply_format (env : Env) (raw : str) (tr : trace)
    (stdout stderr : str) (returncode : Z) :
  let command := strip (skipn 5 (strip raw)) in
  let output := strip stdout in
  let errors := strip stderr in
  startswith (strip raw) (lit "!run ") = true ->
  env_shell env tr command CMD_TIMEOUT = Completed stdout stderr returncode ->
  exists body,
    run_shell env command tr = (Ok body, tr ++ [EvShell command])
    /\ fst (handle_command env raw tr) = Ok tt
    /\ posts (snd (handle_command env raw tr))
         = posts tr ++ [clip (lit "$ " ++ command ++ NL ++ body)]
    /\ shell_runs (snd (handle_command env raw tr)) = shell_runs tr ++ [command]
    /\ (output <> [] -> errors = [] -> body = output)
    /\ (output <> [] -> errors <> [] ->
        body = output ++ NL ++ lit "[stderr]" ++ NL ++ errors)
    /\ (output = [] -> errors <> [] -> body = lit "[stderr]" ++ NL ++ errors)
    /\ (output = [] -> errors = [] ->
        body = lit "(command exited with code " ++ of_int returncode
                 ++ lit ", no output)")
    /\ (raw = lit "!run echo 42" -> stdout = lit "42" ++ NL -> stderr = [] ->
        fst (serve env (user_message (VStr raw)) tr) = RESP_OK
        /\ posts (snd (serve env (user_message (VStr raw)) tr))
             = posts tr ++ [lit "$ echo 42" ++ NL ++ lit "42"]).
Proof.
  intros command output errors Hpre Hdone.
  exists (join NL (shell_parts stdout stderr returncode)).
  assert (Hrun : run_shell env command tr
            = (Ok (join NL (shell_parts stdout stderr returncode)),
               tr ++ [EvShell command])).
  { unfold run_shell. rewrite Hdone. reflexivity. }
  assert (Hcmd : handle_command env raw tr
            = send_message env
                (lit "$ " ++ command ++ NL
                   ++ join NL (shell_parts stdout stderr returncode))
                (tr ++ [EvShell command])).
  { rewrite (handle_command_run env raw Hpre). cbv zeta.
    fold command. rewrite (bind_ok _ Hrun). reflexivity. }
  split; [exact Hrun|].
  split; [rewrite Hcmd; apply send_message_ok|].
  split.
  { rewrite Hcmd, send_message_posts, posts_app. simpl posts.
    rewrite app_nil_r. reflexivity. }
  split.
  { rewrite Hcmd, send_message_shell_runs, shell_runs_app. reflexivity. }
  destruct (shell_parts_join stdout stderr returncode) as [H1 [H2 [H3 H4]]].
  repeat (split; [assumption|]).
  intros -> -> ->.
  assert (Hcmd' : handle_command env (lit "!run echo 42") tr
            = send_message env (lit "$ echo 42" ++ NL ++ lit "42")
                (tr ++ [EvShell (lit "echo 42")])) by exact Hcmd.
  unfold serve. rewrite (webhook_user_command env (lit "!run echo 42") tr eq_refl).
  unfold bind. rewrite Hcmd'.
  destruct (send_message_trace env (lit "$ echo 42" ++ NL ++ lit "42")
              (tr ++ [EvShell (lit "echo 42")])) as [log [-> [Hp _]]].
  cbn [fst snd ret]. split; [reflexivity|].
  rewrite !posts_app. simpl posts. rewrite Hp, app_nil_r. reflexivity.
Qed.

Lemma run_reply_format_witness :
  fst (serve sample_env (user_message (VStr (lit "!run echo 42"))) []) = RESP_OK
  /\ posts (snd (serve sample_env (user_message (VStr (lit "!run echo 42"))) []))
       = [lit "$ echo 42" ++ NL ++ lit "42"].
Proof.
  destruct (run_reply_format sample_env (lit "!run echo 42") []
              (lit "42" ++ NL) [] 0 eq_refl eq_refl) as [body H].
  apply H; reflexivity.
Defined.

(** ** The usage line *)

(** A raw text made of ["!run "] and whitespace strips to ["!run"]: the
    blank of the prefix goes with the rest. *)
Lemma strip_blank_run r :
  forallb isspace r = true -> strip (lit "!run " ++ r) = lit "!run".
Proof.
  intros H. unfold strip.
  change (lit "!run " ++ r) with (33%N :: (lit "run " ++ r)).
  rewrite lstrip_fixed by reflexivity.
  change (33%N :: (lit "run " ++ r)) with (lit "!run" ++ (32%N :: r)).
  rewrite rstrip_app_space; [reflexivity|].
  simpl. exact H.
Qed.

(** C5 fails on the code.  A raw text that begins with ["!run "] and whose
    remainder strips to the empty string is stripped to ["!run"] before the
    prefix test, so no branch is taken: nothing is sent (no usage line) and
    the route answers [{"status": "ok"}].  No shell execution takes place. *)
Theorem empty_run_argument_ignored (env : Env) (raw : str) (tr : trace) :
  startswith raw (lit "!run ") = true ->
  strip (skipn 5 raw) = [] ->
  strip raw = lit "!run"
  /\ handle_command env raw tr = (Ok tt, tr)
  /\ serve env (user_message (VStr raw)) tr = (RESP_OK, tr)
  /\ posts (snd (handle_command env raw tr)) <> posts tr ++ [USAGE].
Proof.
  intros Hpre Hrest. apply startswith_app in Hpre as [r ->].
  change (skipn 5 (lit "!run " ++ r)) with r in Hrest.
  apply strip_all_space in Hrest.
  assert (Hs : strip (lit "!run " ++ r) = lit "!run") by apply strip_blank_run, Hrest.
  assert (Hc : handle_command env (lit "!run " ++ r) tr = (Ok tt, tr)).
  { unfold handle_command. rewrite Hs. reflexivity. }
  split; [exact Hs|]. split; [exact Hc|]. split.
  - unfold serve. rewrite (webhook_user_command env (lit "!run " ++ r) tr eq_refl).
    unfold bind. rewrite Hc. reflexivity.
  - rewrite Hc. simpl snd. intros E.
    apply (f_equal (@List.length str)) in E. rewrite length_app in E.
    simpl in E. lia.
Qed.

Lemma empty_run_argument_ignored_witness :
  strip (lit "!run   ") = lit "!run"
  /\ handle_command sample_env (lit "!run   ") [] = (Ok tt, [])
  /\ serve sample_env (user_message (VStr (lit "!run   "))) [] = (RESP_OK, [])
  /\ posts (snd (handle_command sample_env (lit "!run   ") [])) <> posts [] ++ [USAGE].
Proof.
  apply (empty_run_argument_ignored sample_env (lit "!run   ") []); reflexivity.
Defined.

(** The usage line starts with a capital U; a message that starts otherwise
    is another message. *)
Lemma no_new_post (l : list str) : l <> l ++ [USAGE].
Proof.
  intros E. apply (f_equal (@List.length str)) in E.
  rewrite length_app in E. simpl in E. lia.
Qed.

Lemma send_not_usage env c text tr tr0 :
  posts tr = posts tr0 -> c <> 85%N ->
  posts (snd (send_message env (c :: text) tr)) <> posts tr0 ++ [USAGE].
Proof.
  intros Htr Hc E. rewrite send_message_posts, Htr in E.
  apply app_inv_head in E. destruct (clip_head c text) as [rest Hr].
  rewrite Hr in E. change USAGE with (85%N :: lit "sage: !run <command>") in E.
  injection E as E _. exact (Hc E).
Qed.

(** The usage branch of [handle_command] is never reached. *)
Lemma handle_command_never_usage env raw tr :
  posts (snd (handle_command env raw tr)) <> posts tr ++ [USAGE].
Proof.
  rewrite handle_command_perform.
  destruct (parse raw) as [| |argument|] eqn:Hparse; unfold perform.
  - apply send_not_usage; [reflexivity | discriminate].
  - destruct (get_cpu_temp_pure env tr) as [[temp E]|[e E]].
    + rewrite (bind_ok _ E). apply send_not_usage; [reflexivity | discriminate].
    + rewrite (bind_raise _ E). apply no_new_post.
  - assert (Harg : truthy argument = true).
    { unfold parse in Hparse.
      destruct (eqb (strip raw) (lit "!help")); [discriminate|].
      destruct (eqb (strip raw) (lit "!temp")); [discriminate|].
      destruct (startswith (strip raw) (lit "!run ")) eqn:Hpre; [|discriminate].
      injection Hparse as <-. apply stripped_run_argument, Hpre. }
    rewrite Harg. cbn [negb].
    destruct (run_shell_trace env argument tr) as [out E].
    rewrite (bind_ok _ E). apply send_not_usage; [|discriminate].
    rewrite posts_app. simpl. apply app_nil_r.
  - apply no_new_post.
Qed.

(** C9.  On the stripped text, a text that begins with ["!run"] but not with
    ["!run "] (such as ["!run"] or ["!runx"]) takes no branch: nothing is
    sent, no usage line either.  The branches of [handle_command] send the
    usage line exactly when the text starts with the five characters
    ["!run "] and the remainder strips to the empty string. *)
Theorem run_without_blank_ignored (env : Env) (text : str) (tr : trace) :
  (startswith text (lit "!run") = true ->
   startswith text (lit "!run ") = false ->
   handle_stripped env text tr = (Ok tt, tr)
   /\ (forall raw, strip raw = text -> handle_command env raw tr = (Ok tt, tr)))
  /\ (posts (snd (handle_stripped env text tr)) = posts tr ++ [USAGE] <->
      startswith text (lit "!run ") = true /\ strip (skipn 5 text) = []).
Proof.
  split.
  - intros Hrun Hblank.
    assert (Hs : handle_stripped env text = ret tt).
    { apply handle_stripped_other; [| |exact Hblank];
        apply eqb_neq; intros ->; discriminate Hrun. }
    split; [rewrite Hs; reflexivity|].
    intros raw <-. unfold handle_command. rewrite Hs. reflexivity.
  - unfold handle_stripped. split.
    + destruct (eqb text (lit "!help")).
      { intros E. exfalso. revert E. apply send_not_usage; [reflexivity | discriminate]. }
      destruct (eqb text (lit "!temp")).
      { intros E. exfalso. revert E.
        destruct (get_cpu_temp_pure env tr) as [[temp E]|[e E]].
        - rewrite (bind_ok _ E). apply send_not_usage; [reflexivity | discriminate].
        - rewrite (bind_raise _ E). apply no_new_post. }
      destruct (startswith text (lit "!run ")).
      2:{ intros E. exfalso. revert E. apply no_new_post. }
      cbv zeta. destruct (strip (skipn 5 text)) as [|c rest] eqn:Harg.
      { intros _. split; reflexivity. }
      cbn [truthy negb]. intros E. exfalso. revert E.
      destruct (run_shell_trace env (c :: rest) tr) as [out E].
      rewrite (bind_ok _ E). apply send_not_usage; [|discriminate].
      rewrite posts_app. simpl. apply app_nil_r.
    + intros [Hpre Harg].
      rewrite (run_prefix_not_help _ Hpre), (run_prefix_not_temp _ Hpre), Hpre.
      cbv zeta. rewrite Harg. cbn [truthy negb].
      rewrite send_message_posts. reflexivity.
Qed.

Lemma run_without_blank_ignored_witness :
  handle_stripped sample_env (lit "!runx") [] = (Ok tt, [])
  /\ (forall raw, strip raw = lit "!runx" ->
        handle_command sample_env raw [] = (Ok tt, [])).
Proof.
  apply (proj1 (run_without_blank_ignored sample_env (lit "!runx") []));
    reflexivity.
Defined.

(** ** The route *)

(** The route on a non-empty object, step by step. *)
Lemma webhook_via_object dispatch kv rest tr :
  let items := kv :: rest in
  groupme_webhook_via dispatch (Some (VDict items)) tr =
    if py_eq_str (dict_get items (lit "sender_type") VNone) (lit "bot")
    then (Ok RESP_BOT, tr)
    else match dict_get items (lit "text") (VStr []) with
         | VStr text =>
             if startswith text (lit "!")
             then (dispatch text ;; ret RESP_OK) tr
             else (Ok RESP_OK, tr)
         | _ => (Raise (AttributeError (lit "startswith")), tr)
         end.
Proof.
  cbv zeta. unfold groupme_webhook_via. cbn [get_json py_truthy negb py_get].
  unfold bind at 1. unfold ret at 1.
  destruct (py_eq_str _ _); [reflexivity|].
  unfold bind at 1. unfold ret at 1.
  destruct (dict_get (kv :: rest) (lit "text") (VStr [])); try reflexivity.
  destruct (startswith s (lit "!")); reflexivity.
Qed.

Lemma webhook_parser_filter_object env kv rest tr :
  let items := kv :: rest in
  groupme_webhook_parser_filter env (Some (VDict items)) tr =
    if py_eq_str (dict_get items (lit "sender_type") VNone) (lit "bot")
    then (Ok RESP_BOT, tr)
    else match dict_get items (lit "text") (VStr []) with
         | VStr text => (handle_command env text ;; ret RESP_OK) tr
         | _ => (Raise (AttributeError (lit "startswith")), tr)
         end.
Proof.
  cbv zeta. unfold groupme_webhook_parser_filter.
  cbn [get_json py_truthy negb py_get].
  unfold bind at 1. unfold ret at 1.
  destruct (py_eq_str _ _); [reflexivity|].
  unfold bind at 1. unfold ret at 1.
  destruct (dict_get (kv :: rest) (lit "text") (VStr [])); reflexivity.
Qed.

Lemma webhook_via_falsy dispatch body tr :
  py_truthy (get_json body) = false ->
  groupme_webhook_via dispatch body tr = (Ok RESP_NO_JSON, tr).
Proof. intros H. unfold groupme_webhook_via. rewrite H. reflexivity. Qed.

(** C6.  A payload whose [sender_type] is ["bot"] is answered with the
    "ignored, bot message" status and code 200, whatever its text is.  The
    callee is not called: the result is the same for every callee, also for
    one that would leave a mark, and the trace is left as it was, so nothing
    is sent. *)
Theorem bot_sender_ignored (env : Env) (dispatch : str -> M unit)
    (items : list (str * pyval)) (tr : trace) :
  dict_get items (lit "sender_type") VNone = VStr (lit "bot") ->
  groupme_webhook_via dispatch (Some (VDict items)) tr = (Ok RESP_BOT, tr)
  /\ serve env (Some (VDict items)) tr = (RESP_BOT, tr)
  /\ http_status RESP_BOT = 200%Z.
Proof.
  intros Hbot.
  assert (H : forall d, groupme_webhook_via d (Some (VDict items)) tr
                        = (Ok RESP_BOT, tr)).
  { intros d. destruct items as [|kv rest]; [discriminate Hbot|].
    rewrite webhook_via_object. cbv zeta. rewrite Hbot. reflexivity. }
  split; [apply H|]. split; [|reflexivity].
  unfold serve, groupme_webhook. rewrite H. reflexivity.
Qed.

Lemma bot_sender_ignored_witness :
  groupme_webhook_via marking_dispatch (bot_message (VStr (lit "!run reboot"))) []
    = (Ok RESP_BOT, [])
  /\ serve sample_env (bot_message (VStr (lit "!run reboot"))) [] = (RESP_BOT, [])
  /\ http_status RESP_BOT = 200%Z.
Proof.
  apply (bot_sender_ignored sample_env marking_dispatch
           [(lit "sender_type", VStr (lit "bot"));
            (lit "text", VStr (lit "!run reboot"))] []).
  reflexivity.
Defined.

(** C10.  A body that decodes to a falsy value (the empty object, an empty
    list or string, zero, false, null) is answered like an absent or invalid
    body: "ignored, no JSON" with code 200.  Neither the sender test nor the
    callee is reached: the result is the same for every callee and the trace
    is left as it was. *)
Theorem falsy_json_ignored (env : Env) (dispatch : str -> M unit)
    (body : option pyval) (tr : trace) :
  py_truthy (get_json body) = false ->
  groupme_webhook_via dispatch body tr = (Ok RESP_NO_JSON, tr)
  /\ groupme_webhook_via dispatch body tr = groupme_webhook_via dispatch None tr
  /\ serve env body tr = (RESP_NO_JSON, tr)
  /\ http_status RESP_NO_JSON = 200%Z.
Proof.
  intros Hf.
  assert (H : forall d, groupme_webhook_via d body tr = (Ok RESP_NO_JSON, tr))
    by (intros d; apply webhook_via_falsy, Hf).
  split; [apply H|]. split; [rewrite H; reflexivity|]. split; [|reflexivity].
  unfold serve, groupme_webhook. rewrite H. reflexivity.
Qed.

Lemma falsy_json_ignored_witness :
  groupme_webhook_via marking_dispatch (Some (VDict [])) [] = (Ok RESP_NO_JSON, [])
  /\ groupme_webhook_via marking_dispatch (Some (VDict [])) []
       = groupme_webhook_via marking_dispatch None []
  /\ serve sample_env (Some (VDict [])) [] = (RESP_NO_JSON, [])
  /\ http_status RESP_NO_JSON = 200%Z.
Proof.
  apply (falsy_json_ignored sample_env marking_dispatch (Some (VDict [])) []).
  reflexivity.
Defined.

Lemma handle_command_returns env raw tr :
  (forall tr' e, env_vcgencmd env tr' <> ProbeRaised e) ->
  fst (handle_command env raw tr) = Ok tt.
Proof.
  intros Hprobe. rewrite handle_command_perform.
  destruct (parse raw) as [| |argument|]; unfold perform.
  - apply send_message_ok.
  - destruct (get_cpu_temp_pure env tr) as [[temp E]|[e E]].
    + rewrite (bind_ok _ E). apply send_message_ok.
    + exfalso. unfold get_cpu_temp in E.
      destruct (env_vcgencmd env tr) as [rc out | | | e'] eqn:Hp;
        try (destruct (read_thermal_zone_pure env tr) as [t Ht];
             rewrite Ht in E; discriminate E).
      * destruct (rc =? 0)%Z; [discriminate E|].
        destruct (read_thermal_zone_pure env tr) as [t Ht].
        rewrite Ht in E; discriminate E.
      * apply (Hprobe tr e'), Hp.
  - destruct (negb (truthy argument)); [apply send_message_ok|].
    destruct (run_shell_trace env argument tr) as [out E].
    rewrite (bind_ok _ E). apply send_message_ok.
  - reflexivity.
Qed.

(** On the expected payloads, and on a host whose temperature probe raises
    nothing but what [get_cpu_temp] catches, the route answers 200 with one of
    its three status objects, whatever the shell and the transport do. *)
Lemma serve_expected_payload env body tr :
  (forall tr' e, env_vcgencmd env tr' <> ProbeRaised e) ->
  expected_payload body ->
  let r := fst (serve env body tr) in
  (r = RESP_OK \/ r = RESP_BOT \/ r = RESP_NO_JSON) /\ http_status r = 200%Z.
Proof.
  intros Hprobe Hexp.
  assert (H : let r := fst (serve env body tr) in
              r = RESP_OK \/ r = RESP_BOT \/ r = RESP_NO_JSON).
  { cbv zeta. unfold serve, groupme_webhook.
    destruct Hexp as [Hf | [items [text [Hd Ht]]]].
    { rewrite (webhook_via_falsy _ _ _ Hf). right; right; reflexivity. }
    destruct body as [v|]; [|discriminate Hd]. cbn [get_json] in Hd. subst v.
    destruct items as [|kv rest].
    { rewrite webhook_via_falsy by reflexivity. right; right; reflexivity. }
    rewrite webhook_via_object. cbv zeta. rewrite Ht.
    destruct (py_eq_str _ _); [right; left; reflexivity|].
    left. destruct (startswith text (lit "!")); [|reflexivity].
    pose proof (handle_command_returns env text tr Hprobe) as Hr.
    unfold bind. destruct (handle_command env text tr) as [[[]|e] tr']; [reflexivity|].
    discriminate Hr. }
  split; [exact H|].
  cbv zeta in *. destruct H as [-> | [-> | ->]]; reflexivity.
Qed.

(** C7 fails on the code.  A JSON object whose [text] is null (or any value
    that is not a string) passes the two guards and reaches
    [text.startswith], which raises; a body that decodes to a non-empty list
    (or any truthy value that is not an object) raises at [data.get].  The
    exception escapes the view function and the request is answered 500. *)
Theorem webhook_null_text_raises (env : Env) (tr : trace) :
  serve env (user_message VNone) tr
    = (InternalServerError (AttributeError (lit "startswith")), tr)
  /\ http_status (fst (serve env (user_message VNone) tr)) = 500%Z
  /\ serve env (Some (VList [VInt 1])) tr
       = (InternalServerError (AttributeError (lit "get")), tr)
  /\ http_status (fst (serve env (Some (VList [VInt 1])) tr)) = 500%Z.
Proof. repeat split. Qed.

(** ** Where the prefix filter sits *)

Lemma handle_command_no_bang env text tr :
  startswith (strip text) (lit "!") = false -> handle_command env text tr = (Ok tt, tr).
Proof.
  intros H. unfold handle_command.
  rewrite handle_stripped_other; [reflexivity| | |].
  - apply eqb_neq. intros E. rewrite E in H. discriminate H.
  - apply eqb_neq. intros E. rewrite E in H. discriminate H.
  - destruct (startswith (strip text) (lit "!run ")) eqn:E; [|reflexivity].
    rewrite (startswith_trans _ _ (lit "!") E eq_refl) in H. discriminate H.
Qed.

(** C8, as stated, fails: for the text [" !help"], which does not start with
    ["!"], the route of the source sends nothing, while the route that hands
    every text to the parser sends the help text. *)
Lemma gate_placement_differs :
  startswith (lit " !help") (lit "!") = false
  /\ posts (snd (groupme_webhook sample_env (user_message (VStr (lit " !help"))) []))
       = []
  /\ posts (snd (groupme_webhook_parser_filter sample_env
                   (user_message (VStr (lit " !help"))) []))
       = [HELP_TEXT].
Proof. repeat split. Qed.

(** C8, amended.  For a payload whose text starts with ["!"], or whose text
    stripped of surrounding whitespace does not start with ["!"], the two
    placements of the filter give the same response and the same trace.  With
    the filter at the gate, as in the source, a text that does not start with
    ["!"] never reaches the callee; with the filter in the parser, a text
    whose stripped form does not start with ["!"] sends nothing. *)
Theorem gate_placement_equiv (env : Env) (items : list (str * pyval))
    (text : str) (tr : trace) :
  dict_get items (lit "text") (VStr []) = VStr text ->
  (startswith text (lit "!") = true \/ startswith (strip text) (lit "!") = false ->
   groupme_webhook env (Some (VDict items)) tr
     = groupme_webhook_parser_filter env (Some (VDict items)) tr)
  /\ (startswith text (lit "!") = false ->
      forall dispatch,
        snd (groupme_webhook_via dispatch (Some (VDict items)) tr) = tr)
  /\ (startswith (strip text) (lit "!") = false ->
      handle_command env text tr = (Ok tt, tr)).
Proof.
  intros Htext. split; [|split].
  - intros Hcase. unfold groupme_webhook.
    destruct items as [|kv rest]; [reflexivity|].
    rewrite webhook_via_object, webhook_parser_filter_object. cbv zeta.
    destruct (py_eq_str _ _); [reflexivity|]. rewrite Htext.
    destruct (startswith text (lit "!")) eqn:Hbang; [reflexivity|].
    destruct Hcase as [Hcase|Hcase]; [discriminate Hcase|].
    unfold bind. rewrite (handle_command_no_bang env text tr Hcase). reflexivity.
  - intros Hbang dispatch.
    destruct items as [|kv rest]; [reflexivity|].
    rewrite webhook_via_object. cbv zeta.
    destruct (py_eq_str _ _); [reflexivity|]. rewrite Htext, Hbang. reflexivity.
  - apply handle_command_no_bang.
Qed.

Lemma gate_placement_equiv_witness :
  groupme_webhook sample_env (user_message (VStr (lit "!run echo 42"))) []
    = groupme_webhook_parser_filter sample_env
        (user_message (VStr (lit "!run echo 42"))) [].
Proof.
  apply (proj1 (gate_placement_equiv sample_env
           [(lit "sender_type", VStr (lit "user"));
            (lit "text", VStr (lit "!run echo 42"))]
           (lit "!run echo 42") [] eq_refl)).
  left. reflexivity.
Defined.

(** * Further properties of the program *)

(** ** More on stripping *)

Lemma lstrip_app_kept s w : lstrip s <> [] -> lstrip (s ++ w) = lstrip s ++ w.
Proof.
  induction s as [|c s IH]; simpl; [congruence|].
  destruct (isspace c); [exact IH | reflexivity].
Qed.

(** Whitespace around a text does not change what [strip] yields. *)
Lemma strip_surrounding w1 s w2 :
  forallb isspace w1 = true -> forallb isspace w2 = true ->
  strip (w1 ++ s ++ w2) = strip s.
Proof.
  intros H1 H2. unfold strip. rewrite lstrip_app_space by exact H1.
  destruct (lstrip s) as [|c r] eqn:E.
  - replace (lstrip (s ++ w2)) with (@nil N); [reflexivity|].
    symmetry. apply lstrip_all_space. apply lstrip_all_space in E.
    rewrite forallb_app, E, H2. reflexivity.
  - rewrite lstrip_app_kept by (rewrite E; discriminate).
    rewrite E. apply rstrip_app_space, H2.
Qed.

Lemma strip_trimmed s : trimmed (strip s).
Proof.
  split.
  - destruct (strip s) as [|c r] eqn:E; [reflexivity|].
    apply lstrip_fixed. apply (strip_head _ _ _ E).
  - destruct (strip s) as [|d r _] eqn:E using rev_ind; [reflexivity|].
    apply rstrip_fixed. apply (strip_last _ _ _ E).
Qed.

Lemma trimmed_strip s : trimmed s -> strip s = s.
Proof. intros [Hl Hr]. unfold strip. rewrite Hl. exact Hr. Qed.

Lemma trimmed_head c r : lstrip (c :: r) = c :: r -> isspace c = false.
Proof. apply lstrip_head. Qed.

Lemma trimmed_last r d : rstrip (r ++ [d]) = r ++ [d] -> isspace d = false.
Proof. apply rstrip_last. Qed.

(** Joining two non-empty trimmed texts around anything gives a trimmed text. *)
Lemma trimmed_app a m b :
  trimmed a -> trimmed b -> a <> [] -> b <> [] -> trimmed (a ++ m ++ b).
Proof.
  intros [Hla _] [_ Hrb] Ha Hb. split.
  - destruct a as [|c r]; [congruence|].
    apply (lstrip_fixed c (r ++ m ++ b)), (trimmed_head c r Hla).
  - destruct b as [|d r _] using rev_ind; [congruence|].
    rewrite !app_assoc. apply rstrip_fixed. apply (trimmed_last r d Hrb).
Qed.

(** ** The clipped text *)

(** X1.  Clipping keeps the first 950 characters of every text, clipping a
    clipped text changes nothing, and the length of the clipped text is the
    length of the text when that is at most 950 and 963 otherwise; so a text
    of 951 to 962 characters comes out longer than it went in. *)
Theorem clip_shape (text : str) :
  firstn 950 (clip text) = firstn 950 text
  /\ clip (clip text) = clip text
  /\ List.length (clip text)
       = (if List.length text <=? 950 then List.length text else 963)
  /\ (950 < List.length text -> List.length text < 963 ->
      List.length text < List.length (clip text)).
Proof.
  destruct (Nat.leb_spec (List.length text) 950) as [H|H].
  - rewrite (clip_short _ H). rewrite (clip_short _ H).
    repeat split. lia.
  - pose proof (clip_long _ H) as E.
    assert (Hf : List.length (firstn 950 text) = 950)
      by (rewrite length_firstn; lia).
    assert (Hp : firstn 950 (clip text) = firstn 950 text).
    { rewrite E, firstn_app, Hf, Nat.sub_diag, firstn_O, app_nil_r.
      rewrite firstn_firstn, Nat.min_id. reflexivity. }
    assert (Hl : List.length (clip text) = 963).
    { rewrite E, length_app, Hf, length_marker. reflexivity. }
    split; [exact Hp|]. split; [|split; [exact Hl|lia]].
    rewrite (clip_long (clip text)) by lia. rewrite Hp. symmetry. exact E.
Qed.

Lemma clip_shape_witness :
  List.length (repeat 120%N 951) < List.length (clip (repeat 120%N 951)).
Proof.
  apply (proj2 (proj2 (proj2 (clip_shape (repeat 120%N 951)))));
    vm_compute; lia.
Defined.

(** ** The shell report *)

Lemma app_nonempty_l {A} (a b : list A) : a <> [] -> a ++ b <> [].
Proof. destruct a; simpl; congruence. Qed.

Lemma shell_parts_body stdout stderr rc :
  let body := join NL (shell_parts stdout stderr rc) in
  body <> [] /\ trimmed body.
Proof.
  cbv zeta. unfold shell_parts.
  pose proof (strip_trimmed stdout) as Ho. pose proof (strip_trimmed stderr) as He.
  destruct (strip stdout) as [|a o] eqn:Eo; destruct (strip stderr) as [|b e] eqn:Ee;
    cbn [truthy app join].
  - split; [discriminate|]. split; [reflexivity|].
    change (lit ", no output)") with (lit ", no output" ++ [41%N]).
    rewrite !app_assoc. apply rstrip_fixed. reflexivity.
  - split; [discriminate|].
    apply (trimmed_app (lit "[stderr]") NL (b :: e));
      [split; reflexivity | exact He | discriminate | discriminate].
  - split; [discriminate | exact Ho].
  - split; [discriminate|].
    apply (trimmed_app (a :: o) (NL ++ lit "[stderr]" ++ NL) (b :: e));
      [exact Ho | exact He | discriminate | discriminate].
Qed.

Lemma run_shell_text env command tr :
  exists out,
    run_shell env command tr = (Ok out, tr ++ [EvShell command]) /\ out <> [].
Proof.
  unfold run_shell.
  destruct (env_shell env tr command CMD_TIMEOUT) as [o e rc | po pe | exc];
    eexists; (split; [reflexivity|]).
  - apply shell_parts_body.
  - discriminate.
  - discriminate.
Qed.

(** X3.  [run_shell] never raises, whatever the process does: it hands
    exactly the given command to the shell once and returns a text that is
    never empty.  When the process completes, the text has no whitespace at
    either end; when starting the process fails, the text is the cross mark
    and ["Execution error: "] followed by the text of the exception. *)
Theorem run_shell_always_reports (env : Env) (command : str) (tr : trace) :
  exists out,
    run_shell env command tr = (Ok out, tr ++ [EvShell command])
    /\ out <> []
    /\ (forall stdout stderr rc,
          env_shell env tr command CMD_TIMEOUT = Completed stdout stderr rc ->
          strip out = out)
    /\ (forall exc,
          env_shell env tr command CMD_TIMEOUT = ShellRaised exc ->
          out = [10060%N] ++ lit " Execution error: " ++ exc).
Proof.
  unfold run_shell.
  destruct (env_shell env tr command CMD_TIMEOUT) as [o e rc | po pe | exc];
    eexists; (split; [reflexivity|]).
  - split; [apply shell_parts_body|]. split; [|discriminate].
    intros _ _ _ _. apply trimmed_strip, shell_parts_body.
  - repeat split; discriminate.
  - split; [discriminate|]. split; [discriminate|].
    intros exc' E. injection E as <-. reflexivity.
Qed.

Lemma run_shell_always_reports_witness :
  exists out,
    run_shell sample_env (lit "ls /nope") [] = (Ok out, [EvShell (lit "ls /nope")])
    /\ strip out = out.
Proof.
  destruct (run_shell_always_reports sample_env (lit "ls /nope") [])
    as [out [Hrun [_ [Hs _]]]].
  exists out. split; [exact Hrun|].
  apply (Hs [] (lit "ls: cannot access '/nope'" ++ NL) 2%Z). reflexivity.
Defined.

(** ** What one call of the dispatcher does *)

(** The events one call of [handle_command] adds to the trace. *)
Lemma handle_command_events env raw tr :
  exists ev,
    snd (handle_command env raw tr) = tr ++ ev
    /\ shell_runs ev
         = (if startswith (strip raw) (lit "!run ")
            then [strip (skipn 5 (strip raw))] else [])
    /\ List.length (posts ev) <= 1
    /\ (startswith (strip raw) (lit "!run ") = true ->
        exists out,
          out <> []
          /\ posts ev = [clip (lit "$ " ++ strip (skipn 5 (strip raw)) ++ NL ++ out)]).
Proof.
  assert (Hsend : forall text, exists ev,
            snd (send_message env text tr) = tr ++ ev
            /\ shell_runs ev = [] /\ List.length (posts ev) <= 1).
  { intros text. destruct (send_message_trace env text tr) as [log [-> [Hp Hs]]].
    exists (EvPost BOT_ID (clip text) :: log). simpl. rewrite Hp, Hs.
    repeat split. simpl. lia. }
  assert (Hnone : exists ev : trace,
            tr = tr ++ ev /\ shell_runs ev = [] /\ List.length (posts ev) <= 1).
  { exists []. rewrite app_nil_r. repeat split. simpl. lia. }
  destruct (startswith (strip raw) (lit "!run ")) eqn:Hpre.
  - rewrite (handle_command_run env raw Hpre). cbv zeta.
    destruct (run_shell_text env (strip (skipn 5 (strip raw))) tr) as [out [E Hne]].
    rewrite (bind_ok _ E).
    destruct (send_message_trace env
                (lit "$ " ++ strip (skipn 5 (strip raw)) ++ NL ++ out)
                (tr ++ [EvShell (strip (skipn 5 (strip raw)))]))
      as [log [-> [Hp Hs]]].
    eexists. split; [simpl snd; rewrite <- app_assoc; reflexivity|].
    simpl. rewrite Hp, Hs. repeat split.
    + simpl. lia.
    + intros _. exists out. split; [exact Hne | reflexivity].
  - unfold handle_command, handle_stripped. rewrite Hpre.
    destruct (eqb (strip raw) (lit "!help")).
    { destruct (Hsend HELP_TEXT) as [ev [H1 [H2 H3]]].
      exists ev. repeat split; try assumption. discriminate. }
    destruct (eqb (strip raw) (lit "!temp")).
    { destruct (get_cpu_temp_pure env tr) as [[temp E]|[e E]].
      - rewrite (bind_ok _ E).
        destruct (Hsend ([127777%N] ++ lit " " ++ temp)) as [ev [H1 [H2 H3]]].
        exists ev. repeat split; try assumption. discriminate.
      - rewrite (bind_raise _ E).
        destruct Hnone as [ev [H1 [H2 H3]]].
        exists ev. repeat split; try assumption. discriminate. }
    destruct Hnone as [ev [H1 [H2 H3]]].
    exists ev. repeat split; try assumption. discriminate.
Qed.

(** X4.  Whitespace around a text means nothing to the dispatcher:
    [handle_command] does the same on a text and on that text between any
    two runs of whitespace. *)
Theorem handle_command_ignores_outer_space (env : Env) (w1 raw w2 : str) :
  forallb isspace w1 = true -> forallb isspace w2 = true ->
  handle_command env (w1 ++ raw ++ w2) = handle_command env raw.
Proof.
  intros H1 H2. unfold handle_command.
  rewrite (strip_surrounding w1 raw w2 H1 H2). reflexivity.
Qed.

Lemma handle_command_ignores_outer_space_witness :
  handle_command sample_env (lit "  " ++ lit "!run echo 42" ++ NL)
    = handle_command sample_env (lit "!run echo 42").
Proof.
  apply (handle_command_ignores_outer_space sample_env
           (lit "  ") (lit "!run echo 42") NL); reflexivity.
Defined.

(** X5.  The shell is given a command only by a text whose stripped form
    starts with ["!run "], and then exactly once, with exactly the stripped
    remainder, whatever the process and the transport do; every other text
    (["!help"], ["!temp"], anything else) runs nothing. *)
Theorem handle_command_shell_runs (env : Env) (raw : str) (tr : trace) :
  shell_runs (snd (handle_command env raw tr))
    = shell_runs tr
      ++ (if startswith (strip raw) (lit "!run ")
          then [strip (skipn 5 (strip raw))] else []).
Proof.
  destruct (handle_command_events env raw tr) as [ev [-> [Hs _]]].
  rewrite shell_runs_app, Hs. reflexivity.
Qed.

(** X6.  One call of [handle_command] only adds to the trace, and adds at
    most one message.  A text whose stripped form starts with ["!run "] is
    always answered by exactly one message, the line echoing the command
    followed by a report that is not empty, also when the command times out
    or cannot be started. *)
Theorem handle_command_one_reply (env : Env) (raw : str) (tr : trace) :
  exists ev,
    snd (handle_command env raw tr) = tr ++ ev
    /\ List.length (posts ev) <= 1
    /\ (startswith (strip raw) (lit "!run ") = true ->
        exists out,
          out <> []
          /\ posts ev = [clip (lit "$ " ++ strip (skipn 5 (strip raw)) ++ NL ++ out)]).
Proof.
  destruct (handle_command_events env raw tr) as [ev [H1 [_ [H2 H3]]]].
  exists ev. repeat split; assumption.
Qed.

Lemma handle_command_one_reply_witness :
  exists ev,
    snd (handle_command sample_env (lit "!run sleep 60") []) = [] ++ ev
    /\ exists out,
         out <> []
         /\ posts ev = [clip (lit "$ " ++ lit "sleep 60" ++ NL ++ out)].
Proof.
  destruct (handle_command_one_reply sample_env (lit "!run sleep 60") [])
    as [ev [H1 [_ H3]]].
  exists ev. split; [exact H1|]. apply H3. reflexivity.
Defined.

(** ** What one request does *)

Lemma py_eq_str_true v s : py_eq_str v s = true <-> v = VStr s.
Proof.
  destruct v; simpl; try (split; [discriminate | intros E; discriminate E]).
  rewrite eqb_eq. split; [intros ->; reflexivity | intros E; injection E; auto].
Qed.

Lemma dict_get_missing items key default :
  (forall k v, In (k, v) items -> k <> key) -> dict_get items key default = default.
Proof.
  induction items as [|[k v] rest IH]; intros H; simpl; [reflexivity|].
  destruct (eqb k key) eqn:E.
  - apply eqb_eq in E. exfalso. apply (H k v); [left; reflexivity | exact E].
  - apply IH. intros k' v' Hin. apply (H k' v'). right. exact Hin.
Qed.

(** A truthy value that is not an object has no [get]. *)
Lemma webhook_via_not_object dispatch v tr :
  py_truthy v = true -> (forall items, v <> VDict items) ->
  groupme_webhook_via dispatch (Some v) tr = (Raise (AttributeError (lit "get")), tr).
Proof.
  intros Ht Hv. unfold groupme_webhook_via. cbn [get_json]. rewrite Ht.
  destruct v; try reflexivity. exfalso. apply (Hv items). reflexivity.
Qed.

(** A request either leaves the trace as it was, or makes one call of
    [handle_command] on a text that starts with ["!"]; the answer is then
    [{"status": "ok"}] unless the call raised. *)
Lemma serve_cases env body tr :
  (exists r, serve env body tr = (r, tr))
  \/ exists text,
       startswith text (lit "!") = true
       /\ serve env body tr
            = (match fst (handle_command env text tr) with
               | Ok _ => RESP_OK
               | Raise e => InternalServerError e
               end, snd (handle_command env text tr)).
Proof.
  unfold serve, groupme_webhook.
  destruct (py_truthy (get_json body)) eqn:Ht.
  2:{ rewrite (webhook_via_falsy _ _ _ Ht). left. eexists; reflexivity. }
  destruct body as [v|]; [|discriminate Ht]. cbn [get_json] in Ht.
  destruct v as [| | | | | |items];
    try (rewrite webhook_via_not_object by (try exact Ht; discriminate);
         left; eexists; reflexivity).
  destruct items as [|kv rest]; [discriminate Ht|].
  rewrite webhook_via_object. cbv zeta.
  destruct (py_eq_str _ _); [left; eexists; reflexivity|].
  destruct (dict_get (kv :: rest) (lit "text") (VStr [])) as [| | | |text| |];
    try (left; eexists; reflexivity).
  destruct (startswith text (lit "!")) eqn:Hb; [|left; eexists; reflexivity].
  right. exists text. split; [exact Hb|]. unfold bind.
  destruct (handle_command env text tr) as [[[]|e] tr']; reflexivity.
Qed.

Lemma app_nil_inv {A} (l ev : list A) : l = l ++ ev -> ev = [].
Proof.
  intros E. rewrite <- (app_nil_r l) in E at 1.
  apply app_inv_head in E. symmetry. exact E.
Qed.

(** X7.  No text makes the program send the usage line
    ["Usage: !run <command>"]: not through [handle_command], and so not
    through a request either.  The test for an empty command comes after the
    whole text was stripped, when the command can no longer be empty. *)
Theorem usage_line_never_sent (env : Env) (tr : trace) :
  (forall raw ev,
     snd (handle_command env raw tr) = tr ++ ev -> ~ In USAGE (posts ev))
  /\ (forall body ev,
        snd (serve env body tr) = tr ++ ev -> ~ In USAGE (posts ev)).
Proof.
  assert (H : forall raw ev,
            snd (handle_command env raw tr) = tr ++ ev -> ~ In USAGE (posts ev)).
  { intros raw ev Hev Hin.
    destruct (handle_command_events env raw tr) as [ev' [Hev' [_ [Hlen _]]]].
    rewrite Hev in Hev'. apply app_inv_head in Hev'. subst ev'.
    apply (handle_command_never_usage env raw tr).
    rewrite Hev, posts_app. f_equal.
    destruct (posts ev) as [|x [|y l]].
    - destruct Hin.
    - destruct Hin as [->|[]]. reflexivity.
    - simpl in Hlen. lia. }
  split; [exact H|].
  intros body ev Hev.
  destruct (serve_cases env body tr) as [[r E] | [text [_ E]]]; rewrite E in Hev.
  - apply app_nil_inv in Hev. subst ev. intros [].
  - apply (H text ev Hev).
Qed.

Lemma usage_line_never_sent_witness :
  ~ In USAGE (posts [EvShell (lit "echo 42");
                     EvPost BOT_ID (lit "$ echo 42" ++ NL ++ lit "42")]).
Proof.
  apply (proj1 (usage_line_never_sent sample_env []) (lit "!run echo 42")).
  reflexivity.
Defined.

(** X8.  One request only adds to the trace: at most one message and at
    most one shell command.  A shell command is run only by a request whose
    text starts with ["!"], it is always followed by a message, and that
    request is answered [{"status": "ok"}] with code 200. *)
Theorem serve_one_command_one_message (env : Env) (body : option pyval) (tr : trace) :
  exists ev,
    snd (serve env body tr) = tr ++ ev
    /\ List.length (posts ev) <= 1
    /\ List.length (shell_runs ev) <= 1
    /\ (shell_runs ev <> [] ->
        List.length (posts ev) = 1 /\ fst (serve env body tr) = RESP_OK).
Proof.
  destruct (serve_cases env body tr) as [[r E] | [text [_ E]]]; rewrite E.
  - exists []. rewrite app_nil_r. simpl.
    split; [reflexivity|]. split; [lia|]. split; [lia|]. intros H; now destruct H.
  - destruct (handle_command_events env text tr) as [ev [Hev [Hs [Hp Hrun]]]].
    exists ev. split; [exact Hev|]. split; [exact Hp|].
    destruct (startswith (strip text) (lit "!run ")) eqn:Hpre.
    + destruct (Hrun eq_refl) as [out [_ Hout]].
      rewrite Hs, Hout. repeat split; simpl; try lia.
      replace (fst (handle_command env text tr)) with (@Ok unit tt); [reflexivity|].
      rewrite (handle_command_run env text Hpre). cbv zeta.
      destruct (run_shell_text env (strip (skipn 5 (strip text))) tr) as [o [Eo _]].
      rewrite (bind_ok _ Eo). symmetry. apply send_message_ok.
    + rewrite Hs. simpl. split; [lia|]. intros H; now destruct H.
Qed.

Lemma serve_one_command_one_message_witness :
  exists ev,
    snd (serve sample_env (user_message (VStr (lit "!run echo 42"))) []) = [] ++ ev
    /\ List.length (posts ev) = 1
    /\ fst (serve sample_env (user_message (VStr (lit "!run echo 42"))) []) = RESP_OK.
Proof.
  destruct (serve_one_command_one_message sample_env
              (user_message (VStr (lit "!run echo 42"))) [])
    as [ev [H1 [_ [_ H4]]]].
  exists ev. split; [exact H1|]. apply H4.
  simpl in H1. rewrite <- H1. discriminate.
Defined.

(** X9.  The answer to a request tells nothing about the command: on hosts
    whose temperature probe raises nothing but what [get_cpu_temp] catches,
    the response depends on the body alone, not on what the shell or the
    transport did, nor on what happened before. *)
Theorem serve_response_by_body (env1 env2 : Env) (body : option pyval)
    (tr1 tr2 : trace) :
  (forall tr e, env_vcgencmd env1 tr <> ProbeRaised e) ->
  (forall tr e, env_vcgencmd env2 tr <> ProbeRaised e) ->
  fst (serve env1 body tr1) = fst (serve env2 body tr2).
Proof.
  intros Hp1 Hp2. unfold serve, groupme_webhook.
  destruct (py_truthy (get_json body)) eqn:Ht.
  2:{ rewrite !(webhook_via_falsy _ _ _ Ht). reflexivity. }
  destruct body as [v|]; [|discriminate Ht]. cbn [get_json] in Ht.
  destruct v as [| | | | | |items];
    try (rewrite !webhook_via_not_object by (try exact Ht; discriminate);
         reflexivity).
  destruct items as [|kv rest]; [discriminate Ht|].
  rewrite !webhook_via_object. cbv zeta.
  destruct (py_eq_str _ _); [reflexivity|].
  destruct (dict_get (kv :: rest) (lit "text") (VStr [])) as [| | | |text| |];
    try reflexivity.
  destruct (startswith text (lit "!")); [|reflexivity].
  pose proof (handle_command_returns env1 text tr1 Hp1) as H1.
  pose proof (handle_command_returns env2 text tr2 Hp2) as H2.
  unfold bind.
  destruct (handle_command env1 text tr1) as [[[]|e1] t1]; [|discriminate H1].
  destruct (handle_command env2 text tr2) as [[[]|e2] t2]; [|discriminate H2].
  reflexivity.
Qed.

Lemma serve_response_by_body_witness :
  fst (serve sample_env (user_message (VStr (lit "!run sleep 60"))) [])
    = fst (serve offline_env (user_message (VStr (lit "!run sleep 60")))
             [EvLogError (lit "earlier")]).
Proof.
  apply (serve_response_by_body sample_env offline_env); discriminate.
Defined.

(** X10.  A non-empty object without a [text] key is taken as an empty text:
    the callee is not called, the trace is left as it was, and the answer is
    the "bot message" status when the sender is a bot and [{"status": "ok"}]
    otherwise. *)
Theorem missing_text_acknowledged (dispatch : str -> M unit)
    (kv : str * pyval) (rest : list (str * pyval)) (tr : trace) :
  (forall k v, In (k, v) (kv :: rest) -> k <> lit "text") ->
  groupme_webhook_via dispatch (Some (VDict (kv :: rest))) tr
    = (Ok (if py_eq_str (dict_get (kv :: rest) (lit "sender_type") VNone) (lit "bot")
           then RESP_BOT else RESP_OK), tr).
Proof.
  intros Hmiss. rewrite webhook_via_object. cbv zeta.
  rewrite (dict_get_missing _ _ _ Hmiss).
  destruct (py_eq_str _ _); reflexivity.
Qed.

Lemma missing_text_acknowledged_witness :
  groupme_webhook_via marking_dispatch
    (Some (VDict [(lit "sender_type", VStr (lit "user"))])) []
    = (Ok RESP_OK, []).
Proof.
  apply (missing_text_acknowledged marking_dispatch
           (lit "sender_type", VStr (lit "user")) [] []).
  intros k v [E|[]]. injection E as <- _. discriminate.
Defined.

(** X11.  The sender filter matches one value only: a request is answered
    with the "bot message" status exactly when the decoded object has the
    string ["bot"] under [sender_type].  A missing [sender_type], another
    string (["Bot"], ["system"]) or a value of another type is not
    filtered. *)
Theorem bot_status_iff (dispatch : str -> M unit) (items : list (str * pyval))
    (tr : trace) :
  fst (groupme_webhook_via dispatch (Some (VDict items)) tr) = Ok RESP_BOT
  <-> dict_get items (lit "sender_type") VNone = VStr (lit "bot").
Proof.
  destruct items as [|kv rest].
  { split; intros H; discriminate H. }
  rewrite webhook_via_object. cbv zeta.
  rewrite <- py_eq_str_true.
  destruct (py_eq_str _ _); [split; reflexivity|].
  split; [|discriminate].
  destruct (dict_get (kv :: rest) (lit "text") (VStr [])) as [| | | |text| |];
    try discriminate.
  destruct (startswith text (lit "!")); [|discriminate].
  unfold bind. destruct (dispatch text tr) as [[[]|e] tr']; discriminate.
Qed.

(** ** The startup announcement *)

(** X12.  [send_homing_beacon] never raises and runs nothing: it hands one
    message to the transport, the four lines with the time and the local
    address, where the address reads ["unknown"] when the lookup failed.  The
    fixed part has 80 characters, so the message goes out whole as long as
    the time and the address together have at most 870. *)
Theorem send_homing_beacon_message (env : Env) (tr : trace) :
  let ip := match env_local_ip env tr with
            | Some ip => ip
            | None => lit "unknown"
            end in
  let message :=
    [128225%N] ++ lit " Le Potato bot is ONLINE" ++ NL
    ++ [128336%N] ++ lit " Time : " ++ env_now env tr ++ NL
    ++ [127760%N] ++ lit " IP   : " ++ ip ++ NL
    ++ lit "Type !help for available commands." in
  fst (send_homing_beacon env tr) = Ok tt
  /\ posts (snd (send_homing_beacon env tr)) = posts tr ++ [clip message]
  /\ shell_runs (snd (send_homing_beacon env tr)) = shell_runs tr
  /\ List.length message = 80 + List.length (env_now env tr) + List.length ip
  /\ (List.length (env_now env tr) + List.length ip <= 870 -> clip message = message).
Proof.
  cbv zeta.
  set (ip := match env_local_ip env tr with Some ip => ip | None => lit "unknown" end).
  set (message := [128225%N] ++ lit " Le Potato bot is ONLINE" ++ NL
    ++ [128336%N] ++ lit " Time : " ++ env_now env tr ++ NL
    ++ [127760%N] ++ lit " IP   : " ++ ip ++ NL
    ++ lit "Type !help for available commands.").
  assert (Hb : send_homing_beacon env tr = send_message env message tr).
  { unfold send_homing_beacon, get_local_ip, message, ip. unfold bind, ret.
    destruct (env_local_ip env tr); reflexivity. }
  assert (Hlen : List.length message
                 = 80 + List.length (env_now env tr) + List.length ip).
  { unfold message. repeat rewrite length_app.
    change (List.length [128225%N]) with 1.
    change (List.length [128336%N]) with 1.
    change (List.length [127760%N]) with 1.
    change (List.length NL) with 1.
    change (List.length (lit " Le Potato bot is ONLINE")) with 24.
    change (List.length (lit " Time : ")) with 8.
    change (List.length (lit " IP   : ")) with 8.
    change (List.length (lit "Type !help for available commands.")) with 34.
    lia. }
  rewrite Hb. split; [apply send_message_ok|].
  split; [apply send_message_posts|].
  split; [apply send_message_shell_runs|].
  split; [exact Hlen|].
  intros H. apply clip_short. lia.
Qed.

Lemma send_homing_beacon_message_witness :
  clip ([128225%N] ++ lit " Le Potato bot is ONLINE" ++ NL
        ++ [128336%N] ++ lit " Time : " ++ lit "2024-01-01 00:00:00" ++ NL
        ++ [127760%N] ++ lit " IP   : " ++ lit "unknown" ++ NL
        ++ lit "Type !help for available commands.")
  = [128225%N] ++ lit " Le Potato bot is ONLINE" ++ NL
    ++ [128336%N] ++ lit " Time : " ++ lit "2024-01-01 00:00:00" ++ NL
    ++ [127760%N] ++ lit " IP   : " ++ lit "unknown" ++ NL
    ++ lit "Type !help for available commands.".
Proof.
  apply (proj2 (proj2 (proj2 (proj2 (send_homing_beacon_message offline_env []))))).
  vm_compute. lia.
Defined.

Lemma bot_status_iff_witness :
  fst (groupme_webhook_via marking_dispatch (bot_message (VStr (lit "!help"))) [])
    = Ok RESP_BOT.
Proof.
  apply (proj2 (bot_status_iff marking_dispatch
                  [(lit "sender_type", VStr (lit "bot"));
                   (lit "text", VStr (lit "!help"))] [])).
  reflexivity.
Defined.

(** ** The temperature request *)

(** X14.  For a text that strips to ["!temp"]: when the probe raises
    something [get_cpu_temp] does not catch, nothing is sent, the exception
    leaves [handle_command] and the request is answered 500; otherwise one
    message is sent, the thermometer sign and a blank followed by the text of
    [get_cpu_temp], and no shell command is run. *)
Theorem temp_request (env : Env) (raw : str) (tr : trace) :
  strip raw = lit "!temp" ->
  (forall e, env_vcgencmd env tr = ProbeRaised e ->
     handle_command env raw tr = (Raise e, tr)
     /\ (startswith raw (lit "!") = true ->
         serve env (user_message (VStr raw)) tr = (InternalServerError e, tr)))
  /\ ((forall e, env_vcgencmd env tr <> ProbeRaised e) ->
      exists temp,
        get_cpu_temp env tr = (Ok temp, tr)
        /\ fst (handle_command env raw tr) = Ok tt
        /\ posts (snd (handle_command env raw tr))
             = posts tr ++ [clip ([127777%N] ++ lit " " ++ temp)]
        /\ shell_runs (snd (handle_command env raw tr)) = shell_runs tr).
Proof.
  intros Hs. rewrite (handle_command_temp env raw Hs). split.
  - intros e Hp.
    assert (Hg : get_cpu_temp env tr = (Raise e, tr)).
    { unfold get_cpu_temp. rewrite Hp. reflexivity. }
    assert (Hc : handle_command env raw tr = (Raise e, tr)).
    { rewrite (handle_command_temp env raw Hs). apply (bind_raise _ Hg). }
    split; [apply (bind_raise _ Hg)|].
    intros Hb. unfold serve. rewrite (webhook_user_command env raw tr Hb).
    unfold bind. rewrite Hc. reflexivity.
  - intros Hp. destruct (get_cpu_temp_pure env tr) as [[temp E]|[e E]].
    + exists temp. rewrite (bind_ok _ E). split; [exact E|].
      split; [apply send_message_ok|].
      split; [apply send_message_posts | apply send_message_shell_runs].
    + exfalso. unfold get_cpu_temp in E.
      destruct (env_vcgencmd env tr) as [rc out | | | e'] eqn:Hv.
      * destruct (rc =? 0)%Z; [discriminate E|].
        destruct (read_thermal_zone_pure env tr) as [t Ht].
        rewrite Ht in E. discriminate E.
      * destruct (read_thermal_zone_pure env tr) as [t Ht].
        rewrite Ht in E. discriminate E.
      * destruct (read_thermal_zone_pure env tr) as [t Ht].
        rewrite Ht in E. discriminate E.
      * apply (Hp e'). reflexivity.
Qed.

Lemma temp_request_witness :
  (exists temp,
     get_cpu_temp sample_env [] = (Ok temp, [])
     /\ fst (handle_command sample_env (lit " !temp ") []) = Ok tt
     /\ posts (snd (handle_command sample_env (lit " !temp ") []))
          = posts [] ++ [clip ([127777%N] ++ lit " " ++ temp)]
     /\ shell_runs (snd (handle_command sample_env (lit " !temp ") []))
          = shell_runs [])
  /\ serve locked_probe_env (user_message (VStr (lit "!temp"))) []
       = (InternalServerError (OSError (lit "Permission denied")), []).
Proof.
  split.
  - apply (proj2 (temp_request sample_env (lit " !temp ") [] eq_refl)).
    discriminate.
  - apply (proj1 (temp_request locked_probe_env (lit "!temp") [] eq_refl)
             (OSError (lit "Permission denied")) eq_refl).
    reflexivity.
Defined.
